(** * markitdown-mcp: the server entry point [markitdown_mcp/__main__.py]

    A shallow embedding of the module: the registered tool
    [convert_to_markdown], the Starlette application built by
    [create_starlette_app] with its [/convert] endpoint, and the
    command-line entry point [main].  Python values decoded from JSON are an
    inductive type, dictionaries are finite maps, text is kept as UTF-8
    bytes so that the rendering of a response can fail as it does in
    Python, and the effects of the module (logging, constructing and
    calling the converter, starting a transport, leaving the process) are
    threaded through a state and exception monad whose state records a
    trace of the calls made. *)

From Stdlib Require Import ZArith Ascii Floats.SpecFloat.
From stdpp Require Import gmap strings list pretty.

Open Scope string_scope.
Open Scope Z_scope.

Set Warnings "-register-all".

(** ** Python values *)

(** What [json.loads] can produce, which is all the handler ever sees:
    [None], booleans, integers, floats, strings, lists and dictionaries
    with string keys. *)
Inductive value : Type :=
| VNone
| VBool (b : bool)
| VInt (n : Z)
| VFloat (f : spec_float)
| VStr (s : string)
| VList (l : list value)
| VDict (d : gmap string value).

(** Python's truth test, the one [not uri] applies. *)
Definition truthy (v : value) : bool :=
  match v with
  | VNone => false
  | VBool b => b
  | VInt n => negb (n =? 0)
  | VFloat (S754_zero _) => false
  | VFloat _ => true
  | VStr s => negb (String.eqb s "")
  | VList l => match l with [] => false | _ => true end
  | VDict d => match map_to_list d with [] => false | _ => true end
  end.

(** [type(v).__name__], as it appears in attribute errors. *)
Definition type_name (v : value) : string :=
  match v with
  | VNone => "NoneType"
  | VBool _ => "bool"
  | VInt _ => "int"
  | VFloat _ => "float"
  | VStr _ => "str"
  | VList _ => "list"
  | VDict _ => "dict"
  end.

(** ** Text *)

(** A Python [str] is kept as its UTF-8 bytes.  A lone surrogate (U+D800
    to U+DFFF) has no UTF-8 encoding: it is kept as the three bytes the
    [surrogatepass] handler writes, [ED A0..BF 80..BF], which well-formed
    UTF-8 never contains. *)
Definition byte (c : ascii) : N := N_of_ascii c.

Definition is_continuation (c : ascii) : bool :=
  ((128 <=? byte c) && (byte c <? 192))%N.

(** The two bytes a lone surrogate starts with. *)
Definition opens_surrogate (c1 c2 : ascii) : bool :=
  ((byte c1 =? 237) && (160 <=? byte c2) && (byte c2 <? 192))%N.

Fixpoint has_surrogate (s : string) : bool :=
  match s with
  | String c1 ((String c2 _) as rest) => opens_surrogate c1 c2 || has_surrogate rest
  | _ => false
  end.

(** Whether [s.encode("utf-8")] succeeds. *)
Definition utf8_encodable (s : string) : bool := negb (has_surrogate s).

(** How many surrogates follow one another at the head of [s]. *)
Fixpoint surrogate_run (s : string) : nat :=
  match s with
  | String c1 (String c2 rest2) =>
      if opens_surrogate c1 c2 then
        S (match rest2 with
           | String _ rest3 => surrogate_run rest3
           | EmptyString => 0
           end)
      else 0
  | _ => 0
  end%nat.

Definition surrogate_code_point (c2 c3 : ascii) : N :=
  (55296 + (byte c2 - 160) * 64 + (byte c3 - 128))%N.

(** The first surrogate of [s]: its index counted in characters from
    [pos], the length of the run it starts, and its code point. *)
Fixpoint first_surrogate (s : string) (pos : nat) : option (nat * nat * N) :=
  match s with
  | String c1 ((String c2 rest2) as rest) =>
      if opens_surrogate c1 c2 then
        Some (pos, surrogate_run s,
              surrogate_code_point c2
                match rest2 with
                | String c3 _ => c3
                | EmptyString => "128"%char
                end)
      else first_surrogate rest (if is_continuation c1 then pos else S pos)
  | _ => None
  end.

Definition hex_digit (n : N) : ascii :=
  ascii_of_N (if (n <? 10)%N then 48 + n else 87 + n)%N.

Definition hex2 (n : N) : string :=
  String (hex_digit (n / 16 mod 16)) (String (hex_digit (n mod 16)) "").

Definition hex4 (n : N) : string := hex2 (n / 256) +:+ hex2 n.

Definition dquote : string := String "034"%char "".
Definition backslash : string := String "092"%char "".

(** [str(e)] of the [UnicodeEncodeError] that [encode("utf-8")] raises. *)
Definition surrogates_not_allowed (pos run : nat) (cp : N) : string :=
  match run with
  | 1%nat =>
      "'utf-8' codec can't encode character '" +:+ backslash +:+ "u" +:+ hex4 cp
      +:+ "' in position " +:+ pretty pos +:+ ": surrogates not allowed"
  | _ =>
      "'utf-8' codec can't encode characters in position " +:+ pretty pos
      +:+ "-" +:+ pretty (pos + run - 1)%nat +:+ ": surrogates not allowed"
  end.

(** [json.dumps(..., ensure_ascii=False, separators=(",", ":"))] on a
    string, and on a dictionary with one string field. *)
Definition escape_char (c : ascii) : string :=
  let n := byte c in
  if (n =? 34)%N then backslash +:+ dquote
  else if (n =? 92)%N then backslash +:+ backslash
  else if (n =? 10)%N then backslash +:+ "n"
  else if (n =? 13)%N then backslash +:+ "r"
  else if (n =? 9)%N then backslash +:+ "t"
  else if (n =? 8)%N then backslash +:+ "b"
  else if (n =? 12)%N then backslash +:+ "f"
  else if (n <? 32)%N then backslash +:+ "u00" +:+ hex2 n
  else String c "".

Fixpoint escape (s : string) : string :=
  match s with
  | EmptyString => ""
  | String c rest => escape_char c +:+ escape rest
  end.

Definition json_string (s : string) : string := dquote +:+ escape s +:+ dquote.

Definition dumps_field (key text : string) : string :=
  "{" +:+ json_string key +:+ ":" +:+ json_string text +:+ "}".

(** ** Exceptions and outcomes *)

(** An instance of [Exception]: its class and the text [str(e)] gives.
    [SystemExit] derives from [BaseException] only; it is a separate
    outcome, which [except Exception] does not catch. *)
Record exn : Type := Exn { exc_class : string; exc_str : string }.

(** A call into a library that either returns or raises an [Exception]. *)
Inductive result (A : Type) : Type :=
| Ok (a : A)
| Err (e : exn).
Arguments Ok {A} a.
Arguments Err {A} e.

Inductive outcome (A : Type) : Type :=
| Return (a : A)
| Raise (e : exn)
| SystemExit (code : Z).
Arguments Return {A} a.
Arguments Raise {A} e.
Arguments SystemExit {A} code.

(** [v.get(key)]: the dictionary method, and the [AttributeError] every
    other JSON value answers with. *)
Definition py_get (v : value) (key : string) : result value :=
  match v with
  | VDict d => Ok (default VNone (d !! key))
  | _ => Err (Exn "AttributeError"
                  ("'" +:+ type_name v +:+ "' object has no attribute 'get'"))
  end.

(** ** Library objects the module talks to *)

(** [DocumentConverterResult], of which the module reads [.markdown]. *)
Record DocumentConverterResult : Type := { markdown : string }.

(** The [MarkItDown] class of the conversion library.  An instance has
    attributes of its own ([md_state]); [convert_uri] reads the resource the
    URI names from the outside world ([md_resources]) and may update the
    instance it is called on. *)
Class MarkItDownClass : Type := {
  md_state : Type;
  md_resources : Type;
  md_init : md_state;
  md_convert_uri :
    md_state -> md_resources -> value -> result DocumentConverterResult * md_state
}.

(** A Starlette request, through the one method the handler calls:
    [json] is what [await request.json()] gives, the decoded body or
    the exception the decoder raised. *)
Record Request : Type := { json : result value }.

(** [JSONResponse(content, status_code=200)]. *)
Record JSONResponse : Type := { content : value; status_code : Z }.

(** [JSONResponse({key: text}, status_code=status)].  Starlette renders
    the body when the response is constructed,
    [json.dumps(content, ensure_ascii=False, ...).encode("utf-8")]; the
    encoding raises [UnicodeEncodeError] when the key or the text holds a
    lone surrogate, and the message locates it in the rendered text. *)
Definition JSONResponse_new (key text : string) (status : Z) : result JSONResponse :=
  if utf8_encodable key && utf8_encodable text then
    Ok {| content := VDict {[ key := VStr text ]}; status_code := status |}
  else
    Err (Exn "UnicodeEncodeError"
           match first_surrogate (dumps_field key text) 0 with
           | Some (pos, run, cp) => surrogates_not_allowed pos run cp
           | None => ""
           end).

(** The outcome of a call that returns or raises. *)
Definition outcome_of {A : Type} (r : result A) : outcome A :=
  match r with
  | Ok a => Return a
  | Err e => Raise e
  end.

(** The shape of every error the [/convert] endpoint answers with. *)
Definition error_response (msg : string) (code : Z) : JSONResponse :=
  {| content := VDict {[ "error" := VStr msg ]}; status_code := code |}.

(** ** The tool registry of [FastMCP] *)

Inductive annotation : Type := Ann_str | Ann_int | Ann_bool.

(** What [FastMCP] reads off a function it registers. *)
Inductive fn_ref : Type := Fn_convert_to_markdown.

Record pyfunc : Type := {
  fn_name : string;
  fn_doc : string;
  fn_params : list (string * annotation * bool); (* name, type, has a default *)
  fn_code : fn_ref
}.

Record field_schema : Type := { field_type : annotation; field_required : bool }.

Record Tool : Type := {
  tool_name : string;
  tool_description : string;
  tool_input_schema : gmap string field_schema;
  tool_fn : fn_ref
}.

Record FastMCP : Type := { mcp_name : string; mcp_tools : gmap string Tool }.

Definition FastMCP_new (name : string) : FastMCP :=
  {| mcp_name := name; mcp_tools := ∅ |}.

Definition schema_of (params : list (string * annotation * bool))
  : gmap string field_schema :=
  list_to_map
    (map (fun p => (p.1.1, {| field_type := p.1.2; field_required := negb p.2 |}))
         params).

(** The decorator [@mcp.tool()]: the function is registered under its own
    name unless that name is taken. *)
Definition FastMCP_tool (m : FastMCP) (f : pyfunc) : FastMCP :=
  match mcp_tools m !! fn_name f with
  | Some _ => m
  | None =>
      {| mcp_name := mcp_name m;
         mcp_tools :=
           <[fn_name f :=
               {| tool_name := fn_name f;
                  tool_description := fn_doc f;
                  tool_input_schema := schema_of (fn_params f);
                  tool_fn := fn_code f |}]> (mcp_tools m) |}
  end.

(** The function the module registers, line 25 to 28. *)
Definition convert_to_markdown_def : pyfunc :=
  {| fn_name := "convert_to_markdown";
     fn_doc := "Convert a resource described by an http:, https:, file: or data: URI to markdown";
     fn_params := [("uri", Ann_str, false)];
     fn_code := Fn_convert_to_markdown |}.

(** The module global [mcp] once the module is loaded:
    [mcp = FastMCP("markitdown")] followed by the decorated definition. *)
Definition mcp_at_import : FastMCP :=
  FastMCP_tool (FastMCP_new "markitdown") convert_to_markdown_def.

(** ** The Starlette application *)

Inductive endpoint : Type :=
| EP_handle_sse
| EP_handle_post_message
| EP_handle_http_convert.

Inductive route : Type :=
| Route (path : string) (ep : endpoint) (methods : option (list string))
| Mount (path : string) (app : endpoint).

(** [mcp._mcp_server], the low-level server behind the [FastMCP] object. *)
Record Server : Type := { server_name : string }.

Record Starlette : Type := {
  app_debug : bool;
  app_server : Server;
  app_routes : list route
}.

(** ** Command line *)

(** The namespace [parse_args] returns for the three options declared at
    lines 90 to 100; [host] and [port] default to [None]. *)
Record Namespace : Type := {
  sse : bool;
  host : option string;
  port : option Z
}.

(** One run of the program: [sys.argv], what [parser.parse_args()]
    makes of it (a namespace, or [SystemExit] on a usage error or on
    [--help]), and how the transport the program starts ends:
    [uvicorn.run] and [mcp.run] return when the server stops, leave the
    process (status 1 when the address cannot be bound) or raise (a port
    out of range). *)
Record invocation : Type := {
  argv : list string;
  parsed : outcome Namespace;
  served : outcome unit
}.

Definition str_truthy (s : string) : bool := negb (String.eqb s "").
Definition int_truthy (n : Z) : bool := negb (n =? 0).
Definition opt_truthy {A : Type} (t : A -> bool) (o : option A) : bool :=
  match o with
  | Some a => t a
  | None => false
  end.

(** ** Effects *)

Inductive log_level : Type := DEBUG | INFO | ERROR.

(** The pieces of a formatted log message; interpolated objects are kept
    as they are. *)
Inductive fpiece : Type :=
| FText (s : string)
| FArgv (l : list string)
| FNamespace (n : Namespace).

Inductive event : Type :=
| EvLog (lvl : log_level) (msg : list fpiece)
| EvMarkItDown (obj : nat)               (* [MarkItDown()] returned object [obj] *)
| EvConvertUri (obj : nat) (uri : value) (* [obj.convert_uri(uri)] *)
| EvParserError (msg : string)           (* usage and [msg] written to stderr *)
| EvUvicornRun (app : Starlette) (h : string) (p : Z)
| EvMcpRun.                              (* [mcp.run()], the stdio transport *)

Definition is_conversion (e : event) : bool :=
  match e with
  | EvMarkItDown _ | EvConvertUri _ _ => true
  | _ => false
  end.

Definition is_log (e : event) : bool :=
  match e with
  | EvLog _ _ => true
  | _ => false
  end.


(** The object an event constructs, and the object an event converts
    with. *)
Definition created_object (e : event) : option nat :=
  match e with
  | EvMarkItDown obj => Some obj
  | _ => None
  end.

Definition converted_object (e : event) : option nat :=
  match e with
  | EvConvertUri obj _ => Some obj
  | _ => None
  end.

(** The test of line 109 on the parsed options: [args.host or args.port]. *)
Definition has_override (args : Namespace) : bool :=
  opt_truthy str_truthy (host args) || opt_truthy int_truthy (port args).

Section Program.

Context {MD : MarkItDownClass}.

(** The state of the process: the module global [mcp], the [MarkItDown]
    objects constructed so far, the outside world URIs point into, and the
    calls made so far, oldest first. *)
Record world : Type := World {
  mcp : FastMCP;
  heap : list md_state;
  resources : md_resources;
  trace : list event
}.

Definition M (A : Type) : Type := world -> outcome A * world.

Definition ret {A : Type} (a : A) : M A := fun w => (Return a, w).

Definition bind {A B : Type} (m : M A) (k : A -> M B) : M B :=
  fun w =>
    match m w with
    | (Return a, w') => k a w'
    | (Raise e, w') => (Raise e, w')
    | (SystemExit c, w') => (SystemExit c, w')
    end.

Definition raise {A : Type} (e : exn) : M A := fun w => (Raise e, w).

(** [sys.exit(code)] *)
Definition sys_exit {A : Type} (code : Z) : M A := fun w => (SystemExit code, w).

Definition lift {A : Type} (r : result A) : M A :=
  match r with
  | Ok a => ret a
  | Err e => raise e
  end.

Definition lift_outcome {A : Type} (o : outcome A) : M A := fun w => (o, w).

(** [try: body except Exception as e: handler e]; [SystemExit] passes
    through. *)
Definition try_except {A : Type} (body : M A) (handler : exn -> M A) : M A :=
  fun w =>
    match body w with
    | (Raise e, w') => handler e w'
    | r => r
    end.

Definition emit (e : event) : M unit :=
  fun w =>
    (Return tt,
     {| mcp := mcp w; heap := heap w; resources := resources w;
        trace := trace w ++ [e] |}).

End Program.

Declare Scope py_scope.
Delimit Scope py_scope with py.
Notation "x <- m ;; k" := (bind m (fun x => k))
  (at level 100, m at next level, right associativity) : py_scope.
Notation "m ;; k" := (bind m (fun _ => k))
  (at level 100, right associativity) : py_scope.

Open Scope py_scope.

(** ** The module's functions *)

Section Functions.

Context {MD : MarkItDownClass}.

Definition logger_log (lvl : log_level) (msg : list fpiece) : M unit :=
  emit (EvLog lvl msg).

(** [MarkItDown()]: a new object, stored after the ones that exist. *)
Definition MarkItDown_new : M nat :=
  fun w =>
    let obj := length (heap w) in
    (Return obj,
     {| mcp := mcp w; heap := heap w ++ [md_init]; resources := resources w;
        trace := trace w ++ [EvMarkItDown obj] |}).

(** [obj.convert_uri(uri)]: the method runs on the attributes of [obj] and
    leaves them updated. *)
Definition convert_uri (obj : nat) (uri : value) : M DocumentConverterResult :=
  fun w =>
    match heap w !! obj with
    | Some st =>
        let (r, st') := md_convert_uri st (resources w) uri in
        lift r
          {| mcp := mcp w; heap := <[obj := st']> (heap w);
             resources := resources w;
             trace := trace w ++ [EvConvertUri obj uri] |}
    | None => (Raise (Exn "ReferenceError" "no such object"), w)
      (* not reached: [obj] comes from [MarkItDown_new] *)
    end.

(** Lines 25 to 28:
    [return MarkItDown().convert_uri(uri).markdown] *)
Definition convert_to_markdown (uri : value) : M string :=
  obj <- MarkItDown_new ;;
  res <- convert_uri obj uri ;;
  ret (markdown res).

(** Calling a registered function by reference with keyword arguments,
    [fn( **kwargs )]. *)
Definition call_fn (f : fn_ref) (kwargs : gmap string value) : M string :=
  match f with
  | Fn_convert_to_markdown =>
      match kwargs !! "uri" with
      | Some uri => convert_to_markdown uri
      | None =>
          raise (Exn "TypeError"
                   "convert_to_markdown() missing 1 required positional argument: 'uri'")
      end
  end.

(** Lines 46 to 67. *)
Definition handle_http_convert (request : Request) : M JSONResponse :=
  try_except
    (body <- lift (json request) ;;
     uri <- lift (py_get body "uri") ;;
     if negb (truthy uri) then
       lift (JSONResponse_new "error" "Missing required parameter: uri" 400)
     else
       markdown <- convert_to_markdown uri ;;
       lift (JSONResponse_new "markdown" markdown 200))
    (fun e =>
       logger_log ERROR [FText ("Error processing request: " +:+ exc_str e)] ;;
       lift (JSONResponse_new "error" (exc_str e) 500)).

(** Lines 31 to 76; [handle_sse] and the message endpoint hand the
    connection to the protocol library and appear here as route targets. *)
Definition create_starlette_app (mcp_server : Server) (debug : bool) : Starlette :=
  {| app_debug := debug;
     app_server := mcp_server;
     app_routes :=
       [ Route "/sse" EP_handle_sse None;
         Mount "/messages/" EP_handle_post_message;
         Route "/convert" EP_handle_http_convert (Some ["POST"]) ] |}.

Definition get_mcp_server : M Server :=
  fun w => (Return {| server_name := mcp_name (mcp w) |}, w).

(** [parser.error(msg)]: usage and message on the error stream, then
    [SystemExit(2)]. *)
Definition parser_error {A : Type} (msg : string) : M A :=
  emit (EvParserError msg) ;; sys_exit 2.

(** Lines 80 to 128. *)
Definition main (inv : invocation) : M unit :=
  logger_log INFO [FText "Starting markitdown-mcp server"] ;;
  logger_log DEBUG [FText "Command line arguments: "; FArgv (argv inv)] ;;
  mcp_server <- get_mcp_server ;;
  args <- try_except
            (args <- lift_outcome (parsed inv) ;;
             logger_log DEBUG [FText "Parsed arguments: "; FNamespace args] ;;
             ret args)
            (fun e =>
               logger_log ERROR [FText ("Error parsing arguments: " +:+ exc_str e)] ;;
               raise e) ;;
  (if negb (sse args)
      && (opt_truthy str_truthy (host args) || opt_truthy int_truthy (port args))
   then
     let error_msg :=
       "Host and port arguments are only valid when using SSE transport." in
     logger_log ERROR [FText error_msg] ;;
     parser_error (A := unit) error_msg ;;
     sys_exit 1
   else ret tt) ;;
  if sse args then
    logger_log INFO [FText "Starting in SSE mode"] ;;
    let starlette_app := create_starlette_app mcp_server true in
    let host :=
      if opt_truthy str_truthy (host args) then default "" (host args)
      else "127.0.0.1" in
    let port :=
      if opt_truthy int_truthy (port args) then default 0 (port args)
      else 3001 in
    logger_log INFO [FText ("Binding to " +:+ host +:+ ":" +:+ pretty port)] ;;
    emit (EvUvicornRun starlette_app host port) ;;
    lift_outcome (served inv)
  else
    logger_log INFO [FText "Starting in STDIO mode"] ;;
    emit EvMcpRun ;;
    lift_outcome (served inv).

(** The process right after the module is loaded. *)
Definition world_at_import (res : md_resources) : world :=
  {| mcp := mcp_at_import; heap := []; resources := res; trace := [] |}.

(** *** What can happen to the process *)

(** The entry points of the module, each run to completion. *)
Inductive operation : Type :=
| Op_convert_to_markdown (uri : value)
| Op_handle_http_convert (request : Request)
| Op_main (inv : invocation).

Definition run_operation (op : operation) (w : world) : world :=
  match op with
  | Op_convert_to_markdown uri => (convert_to_markdown uri w).2
  | Op_handle_http_convert request => (handle_http_convert request w).2
  | Op_main inv => (main inv w).2
  end.

(** The outside world changes on its own. *)
Definition with_resources (res : md_resources) (w : world) : world :=
  {| mcp := mcp w; heap := heap w; resources := res; trace := trace w |}.

Inductive reachable : world -> Prop :=
| reachable_import res : reachable (world_at_import res)
| reachable_run op w : reachable w -> reachable (run_operation op w)
| reachable_outside res w : reachable w -> reachable (with_resources res w).

(** The process after one conversion of [uri]: one more object, which
    [convert_uri] has run on, and the two calls in the trace. *)
Definition converted (uri : value) (w : world) : world :=
  {| mcp := mcp w;
     heap := heap w ++ [(md_convert_uri md_init (resources w) uri).2];
     resources := resources w;
     trace := trace w ++ [EvMarkItDown (length (heap w));
                          EvConvertUri (length (heap w)) uri] |}.

(** The process after the calls [evs], in that order. *)
Definition emitted (evs : list event) (w : world) : world :=
  {| mcp := mcp w; heap := heap w; resources := resources w;
     trace := trace w ++ evs |}.

(** The text of [error_msg], line 110. *)
Definition usage_message : string :=
  "Host and port arguments are only valid when using SSE transport.".

(** What [main] logs before it looks at the arguments. *)
Definition startup_log (inv : invocation) (args : Namespace) : list event :=
  [ EvLog INFO [FText "Starting markitdown-mcp server"];
    EvLog DEBUG [FText "Command line arguments: "; FArgv (argv inv)];
    EvLog DEBUG [FText "Parsed arguments: "; FNamespace args] ].

(** The process after one more line in the log. *)
Definition logged (lvl : log_level) (msg : list fpiece) (w : world) : world :=
  {| mcp := mcp w; heap := heap w; resources := resources w;
     trace := trace w ++ [EvLog lvl msg] |}.

(** What the [except] block of the handler makes of [e], lines 62 to 67:
    the line in the log, then the answer with status 500, or the
    [UnicodeEncodeError] of an answer that cannot be rendered. *)
Definition handled (e : exn) (w : world) : outcome JSONResponse * world :=
  (outcome_of (JSONResponse_new "error" (exc_str e) 500),
   logged ERROR [FText ("Error processing request: " +:+ exc_str e)] w).

(** What [MarkItDown().convert_uri(uri).markdown] evaluates to when the
    outside world is [res]. *)
Definition conversion (res : md_resources) (uri : value) : result string :=
  match (md_convert_uri md_init res uri).1 with
  | Ok r => Ok (markdown r)
  | Err e => Err e
  end.

End Functions.

(** ** A converter to run the module on *)

(** Modelled from the spec: the supported URI schemes; the protocol
    library is not told them, the tool's docstring at line 27 lists them. *)
Definition supported_scheme (uri : string) : bool :=
  String.prefix "http:" uri || String.prefix "https:" uri
  || String.prefix "file:" uri || String.prefix "data:" uri.

(** [uri.split(":")[0]] *)
Fixpoint scheme_of (uri : string) : string :=
  match uri with
  | EmptyString => ""
  | String c rest => if (byte c =? 58)%N then "" else String c (scheme_of rest)
  end.

(** A conversion library whose outside world is a table from URI to the
    markdown of the document found there.  A URI outside the table cannot
    be fetched, a URI with another scheme is refused with the scheme in
    the message, and a URI that is not a string has no [strip] method.
    An instance counts the conversions it has made. *)
Definition table_convert_uri (st : nat) (docs : gmap string string) (uri : value)
  : result DocumentConverterResult * nat :=
  match uri with
  | VStr s =>
      if supported_scheme s then
        match docs !! s with
        | Some text => (Ok {| markdown := text |}, S st)
        | None => (Err (Exn "ConnectionError" ("cannot fetch " +:+ s)), S st)
        end
      else
        (Err (Exn "ValueError"
                ("Unsupported URI scheme: " +:+ scheme_of s
                 +:+ ". Supported schemes are: file:, data:, http:, https:")),
         st)
  | _ =>
      (Err (Exn "AttributeError"
                ("'" +:+ type_name uri +:+ "' object has no attribute 'strip'")),
       st)
  end.

Definition table_converter : MarkItDownClass :=
  {| md_state := nat;
     md_resources := gmap string string;
     md_init := 0%nat;
     md_convert_uri := table_convert_uri |}.

Definition example_docs : gmap string string :=
  {[ "https://example.com" := "Example"; "file:///a.txt" := "# Title" ]}.

Definition example_world : @world table_converter :=
  @world_at_import table_converter example_docs.

(** The text U+D800, a lone surrogate, and an outside world with a
    document whose markdown is that text. *)
Definition lone_surrogate : string :=
  String "237"%char (String "160"%char (String "128"%char "")).

Definition surrogate_docs : gmap string string :=
  {[ "https://example.com/broken" := lone_surrogate ]}.

Definition surrogate_world : @world table_converter :=
  @world_at_import table_converter surrogate_docs.

(** A request whose body decodes to [body]. *)
Definition request_of (body : value) : Request := {| json := Ok body |}.

(** Whether a decoded body is an object that has the field [key]. *)
Definition has_field (body : value) (key : string) : bool :=
  match body with
  | VDict d => bool_decide (is_Some (d !! key))
  | _ => false
  end.

(** ** The session protocol engine *)

(** The module hands every protocol session to the protocol library
    ([mcp_server.run] inside [handle_sse], [mcp.run] for stdio).  The
    engine below is written after sections 3, 4.1, 4.2 and 7 of the
    specification. *)

(** Modelled from the spec: the error taxonomy of section 7, for the
    dispatcher that lives in the protocol library. *)
Inductive protocol_error : Type :=
| ValidationError (field : string)
| UnknownCapabilityError (id : string)
| ConversionError (e : exn)
| ProtocolSequenceError.

(** Modelled from the spec: the request envelope of section 3,
    [{correlation_id, capability_id, arguments}], decoded by the protocol
    library. *)
Record RequestEnvelope : Type := {
  correlation_id : value;
  capability_id : string;
  arguments : gmap string value
}.

(** Modelled from the spec: the response envelope of section 3,
    [{correlation_id, result | error}], encoded by the protocol library. *)
Record ResponseEnvelope : Type := {
  response_correlation_id : value;
  response_body : string + protocol_error
}.

(** Modelled from the spec: the [error] field of a response envelope,
    empty when the envelope carries a result. *)
Definition response_error (r : ResponseEnvelope) : option protocol_error :=
  match response_body r with
  | inl _ => None
  | inr e => Some e
  end.

(** Modelled from the spec: [resolve(id)] of section 4.1, a registry
    operation of the protocol library. *)
Definition resolve (m : FastMCP) (id : string) : Tool + protocol_error :=
  match mcp_tools m !! id with
  | Some t => inl t
  | None => inr (UnknownCapabilityError id)
  end.

(** Modelled from the spec: whether an argument has the type its schema
    field asks for (section 4.1, "mistyped"), a check of the protocol
    library. *)
Definition well_typed (a : annotation) (v : value) : bool :=
  match a, v with
  | Ann_str, VStr _ => true
  | Ann_int, VInt _ => true
  | Ann_bool, VBool _ => true
  | _, _ => false
  end.

(** Modelled from the spec: validation of section 4.1, done by the
    protocol library before invocation: a required field that is absent,
    or a field that is mistyped, fails. *)
Fixpoint validate_fields (fields : list (string * field_schema))
    (args : gmap string value) : option protocol_error :=
  match fields with
  | [] => None
  | (name, f) :: rest =>
      match args !! name with
      | None =>
          if field_required f then Some (ValidationError name)
          else validate_fields rest args
      | Some v =>
          if well_typed (field_type f) v then validate_fields rest args
          else Some (ValidationError name)
      end
  end.

(** Modelled from the spec: validation of a capability's arguments
    against its input schema (section 4.1), done by the protocol library. *)
Definition validate (t : Tool) (args : gmap string value) : option protocol_error :=
  validate_fields (map_to_list (tool_input_schema t)) args.

(** Modelled from the spec: the session of section 3,
    [{id, state, transport}], kept by the protocol library. *)
Inductive session_state : Type := Uninitialized | Ready | Closed.

(** Modelled from the spec: the two transports of a session (section 3),
    implemented by the protocol library. *)
Inductive transport : Type := Stdio | SSE.

(** Modelled from the spec: the session record of section 3, kept by the
    protocol library. *)
Record Session : Type := {
  session_id : nat;
  state : session_state;
  session_transport : transport
}.

(** Modelled from the spec: a session moved to another state (section
    4.2), a step of the protocol library. *)
Definition set_state (st : session_state) (s : Session) : Session :=
  {| session_id := session_id s; state := st;
     session_transport := session_transport s |}.

(** Modelled from the spec: the inbound frames of section 4.2, decoded by
    the protocol library: the handshake and capability requests. *)
Inductive inbound : Type :=
| Handshake
| CapabilityRequest (req : RequestEnvelope).

(** Modelled from the spec: the outbound frames of section 4.2, produced
    by the protocol library. *)
Inductive outbound : Type :=
| HandshakeAck
| Response (r : ResponseEnvelope).

Section Protocol.

Context {MD : MarkItDownClass}.

(** Modelled from the spec: [invoke(capability, arguments)] of section
    4.1, run by the protocol library: validation first, then the handler
    once; a handler that raises gives [ConversionError]. *)
Definition invoke (t : Tool) (args : gmap string value)
  : M (string + protocol_error) :=
  match validate t args with
  | Some err => ret (inr err)
  | None =>
      try_except
        (r <- call_fn (tool_fn t) args ;; ret (inl r))
        (fun e => ret (inr (ConversionError e)))
  end.

(** Modelled from the spec: [dispatch(request_envelope)] of section 4.2,
    the dispatcher of the protocol library: resolve, validate and invoke,
    and wrap success or failure into a response that carries the
    request's correlation id. *)
Definition dispatch (req : RequestEnvelope) : M ResponseEnvelope :=
  fun w =>
    match resolve (mcp w) (capability_id req) with
    | inr err =>
        (Return {| response_correlation_id := correlation_id req;
                   response_body := inr err |}, w)
    | inl t =>
        (body <- invoke t (arguments req) ;;
         ret {| response_correlation_id := correlation_id req;
                response_body := body |}) w
    end.

(** Modelled from the spec: the state machine of section 4.2, run by the
    protocol library for a stdio or an SSE session alike: what a session
    does with one inbound frame, the session it becomes and the frames it
    sends, or the protocol error it fails with. *)
Inductive session_step :
  Session -> world -> inbound ->
  Session -> world -> list outbound + protocol_error -> Prop :=
| step_handshake s w :
    state s = Uninitialized ->
    session_step s w Handshake (set_state Ready s) w (inl [HandshakeAck])
| step_out_of_sequence s w req :
    state s = Uninitialized ->
    session_step s w (CapabilityRequest req) (set_state Closed s) w
      (inr ProtocolSequenceError)
| step_request s w req resp w' :
    state s = Ready ->
    dispatch req w = (Return resp, w') ->
    session_step s w (CapabilityRequest req) s w' (inl [Response resp])
| step_closed s w f :
    state s = Closed ->
    session_step s w f s w (inl []).

End Protocol.

(** A ready session on [tr], and a request for the registered tool. *)
Definition ready_session (tr : transport) : Session :=
  {| session_id := 1; state := Ready; session_transport := tr |}.

Definition tool_request (id : Z) (uri : string) : RequestEnvelope :=
  {| correlation_id := VInt id;
     capability_id := "convert_to_markdown";
     arguments := {[ "uri" := VStr uri ]} |}.

(** * Properties *)

Section Handler.

Context {MD : MarkItDownClass}.

(** ** One conversion *)

Lemma MarkItDown_new_lookup (w : world) :
  heap (MarkItDown_new w).2 !! length (heap w) = Some md_init.
Proof. cbn. by rewrite list_lookup_middle. Qed.

Lemma convert_to_markdown_run (uri : value) (w : world) :
  convert_to_markdown uri w =
    (match conversion (resources w) uri with
     | Ok m => Return m
     | Err e => Raise e
     end, converted uri w).
Proof.
  unfold convert_to_markdown, bind, converted, conversion.
  cbn [MarkItDown_new]. unfold convert_uri. cbn [heap resources mcp trace].
  rewrite list_lookup_middle by done.
  destruct (md_convert_uri md_init (resources w) uri) as [r st'].
  rewrite insert_app_r_alt by done. rewrite Nat.sub_diag. cbn [fst snd].
  rewrite <- app_assoc.
  destruct r as [r | e]; reflexivity.
Qed.

(** ** Constructing a response *)

Lemma JSONResponse_new_ok (key text : string) (status : Z) :
  utf8_encodable key = true ->
  utf8_encodable text = true ->
  JSONResponse_new key text status =
    Ok {| content := VDict {[ key := VStr text ]}; status_code := status |}.
Proof. intros Hk Ht. unfold JSONResponse_new. by rewrite Hk, Ht. Qed.

Lemma JSONResponse_new_inv (key text : string) (status : Z) (resp : JSONResponse) :
  JSONResponse_new key text status = Ok resp ->
  resp = {| content := VDict {[ key := VStr text ]}; status_code := status |}.
Proof.
  unfold JSONResponse_new.
  destruct (utf8_encodable key && utf8_encodable text); congruence.
Qed.

Lemma JSONResponse_new_raises (key text : string) (status : Z) (e : exn) :
  JSONResponse_new key text status = Err e ->
  exc_class e = "UnicodeEncodeError"
  /\ utf8_encodable key && utf8_encodable text = false.
Proof.
  unfold JSONResponse_new.
  destruct (utf8_encodable key && utf8_encodable text); [done |].
  intros [= <-]. done.
Qed.

Lemma lift_run {A : Type} (r : result A) (w : world) : lift r w = (outcome_of r, w).
Proof. by destruct r. Qed.

(** ** The [/convert] handler, case by case *)

Lemma handle_undecodable (request : Request) (e : exn) (w : world) :
  json request = Err e ->
  handle_http_convert request w = handled e w.
Proof.
  intros H. unfold handle_http_convert, try_except, bind, handled. rewrite H.
  cbn -[JSONResponse_new]. rewrite lift_run.
  by destruct (JSONResponse_new "error" (exc_str e) 500).
Qed.

Lemma handle_not_a_dict (request : Request) (body : value) (e : exn) (w : world) :
  json request = Ok body ->
  py_get body "uri" = Err e ->
  handle_http_convert request w = handled e w.
Proof.
  intros H1 H2. unfold handle_http_convert, try_except, bind, handled.
  rewrite H1. cbn -[JSONResponse_new]. rewrite H2.
  cbn -[JSONResponse_new]. rewrite lift_run.
  by destruct (JSONResponse_new "error" (exc_str e) 500).
Qed.

Lemma handle_falsy (request : Request) (body uri : value) (w : world) :
  json request = Ok body ->
  py_get body "uri" = Ok uri ->
  truthy uri = false ->
  handle_http_convert request w =
    (Return (error_response "Missing required parameter: uri" 400), w).
Proof.
  intros H1 H2 H3. unfold handle_http_convert, try_except, bind.
  rewrite H1. cbn -[JSONResponse_new]. rewrite H2.
  cbn -[JSONResponse_new]. rewrite H3. reflexivity.
Qed.

Lemma handle_truthy (request : Request) (body uri : value) (w : world) :
  json request = Ok body ->
  py_get body "uri" = Ok uri ->
  truthy uri = true ->
  handle_http_convert request w =
    match conversion (resources w) uri with
    | Ok m =>
        match JSONResponse_new "markdown" m 200 with
        | Ok resp => (Return resp, converted uri w)
        | Err e => handled e (converted uri w)
        end
    | Err e => handled e (converted uri w)
    end.
Proof.
  intros H1 H2 H3. unfold handle_http_convert, try_except, bind, handled.
  rewrite H1. cbn -[convert_to_markdown JSONResponse_new]. rewrite H2.
  cbn -[convert_to_markdown JSONResponse_new]. rewrite H3.
  cbn -[convert_to_markdown JSONResponse_new].
  rewrite (convert_to_markdown_run uri w).
  destruct (conversion (resources w) uri) as [m | e].
  - rewrite lift_run.
    destruct (JSONResponse_new "markdown" m 200) as [resp | e];
      cbn -[JSONResponse_new]; [done |].
    rewrite lift_run. by destruct (JSONResponse_new "error" (exc_str e) 500).
  - cbn -[JSONResponse_new]. rewrite lift_run.
    by destruct (JSONResponse_new "error" (exc_str e) 500).
Qed.

(** The response depends on the request and on the outside world, not on
    what the process did before. *)
Lemma handle_http_convert_response (request : Request) (w1 w2 : world) :
  resources w1 = resources w2 ->
  (handle_http_convert request w1).1 = (handle_http_convert request w2).1.
Proof.
  intros Hres.
  destruct (json request) as [body | e] eqn:Hjson.
  - destruct (py_get body "uri") as [uri | e] eqn:Hget.
    + destruct (truthy uri) eqn:Ht.
      * rewrite !(handle_truthy request body uri) by done.
        rewrite Hres. destruct (conversion (resources w2) uri) as [m | e]; [| done].
        by destruct (JSONResponse_new "markdown" m 200).
      * by rewrite !(handle_falsy request body uri).
    + by rewrite !(handle_not_a_dict request body e).
  - by rewrite !(handle_undecodable request e).
Qed.

Lemma nonempty_truthy (s : string) : s <> "" -> truthy (VStr s) = true.
Proof. intros H. cbn. by apply negb_true_iff, String.eqb_neq. Qed.

(** A converter that raises with a text that can be encoded is answered
    with status 500 and that text; requests handled afterwards get the
    response they would have got otherwise. *)
Lemma conversion_failure_answered (request : Request) (d : gmap string value)
    (uri : value) (e : exn) (w : world) :
  json request = Ok (VDict d) ->
  d !! "uri" = Some uri ->
  truthy uri = true ->
  conversion (resources w) uri = Err e ->
  utf8_encodable (exc_str e) = true ->
  exists w',
    handle_http_convert request w =
      (Return {| content := VDict {[ "error" := VStr (exc_str e) ]};
                 status_code := 500 |}, w')
    /\ forall other : Request,
         (handle_http_convert other w').1 = (handle_http_convert other w).1.
Proof.
  intros Hjson Huri Ht Hconv Henc. eexists. split.
  - rewrite (handle_truthy request (VDict d) uri); [| done | | done].
    + rewrite Hconv. unfold handled.
      rewrite (JSONResponse_new_ok "error" (exc_str e) 500) by done. reflexivity.
    + cbn. by rewrite Huri.
  - intros other. by apply handle_http_convert_response.
Qed.

(** ** Claims about the [/convert] endpoint *)

(** C1, as amended. A body that is an object with a non-empty string
    [uri], on which the converter returns markdown [m] that can be
    encoded as UTF-8, is answered with status 200 and the body
    [{"markdown": m}]; what the handler runs for it is the function
    registered as the tool, called once on that [uri]: the process
    afterwards is the process after that one call, no session is
    involved. *)
Theorem convert_success (request : Request) (d : gmap string value)
    (s m : string) (w : world) :
  json request = Ok (VDict d) ->
  d !! "uri" = Some (VStr s) ->
  s <> "" ->
  conversion (resources w) (VStr s) = Ok m ->
  utf8_encodable m = true ->
  handle_http_convert request w =
    (Return {| content := VDict {[ "markdown" := VStr m ]}; status_code := 200 |},
     converted (VStr s) w)
  /\ exists t, mcp_tools mcp_at_import !! "convert_to_markdown" = Some t
       /\ call_fn (tool_fn t) {[ "uri" := VStr s ]} w
          = (Return m, converted (VStr s) w).
Proof.
  intros Hjson Huri Hs Hconv Henc. split.
  - rewrite (handle_truthy request (VDict d) (VStr s)).
    + rewrite Hconv. by rewrite (JSONResponse_new_ok "markdown" m 200).
    + done.
    + cbn. by rewrite Huri.
    + by apply nonempty_truthy.
  - eexists. split; [reflexivity |].
    cbn -[convert_to_markdown]. rewrite lookup_singleton_eq.
    rewrite (convert_to_markdown_run (VStr s) w). by rewrite Hconv.
Qed.

(** C2, as amended. A body that is a JSON object without the key [uri] is
    answered with status 400 and an object holding an [error] field; the
    converter is neither constructed nor called: the process is left as it
    was. *)
Theorem missing_uri_in_object (request : Request) (d : gmap string value)
    (w : world) :
  json request = Ok (VDict d) ->
  d !! "uri" = None ->
  handle_http_convert request w =
    (Return {| content := VDict {[ "error" := VStr "Missing required parameter: uri" ]};
               status_code := 400 |}, w)
  /\ filter (fun e => is_conversion e = true) (trace (handle_http_convert request w).2)
     = filter (fun e => is_conversion e = true) (trace w).
Proof.
  intros Hjson Huri.
  assert (handle_http_convert request w =
            (Return (error_response "Missing required parameter: uri" 400), w)) as E.
  { apply (handle_falsy request (VDict d) VNone); [done | | done].
    cbn. by rewrite Huri. }
  split; [exact E | by rewrite E].
Qed.

(** C8. A [uri] key bound to a falsy value (the empty string, [None],
    [False], 0 and every other value Python counts as false) gets what a
    missing [uri] gets: status 400 with the missing-parameter error, the
    process left as it was, so no conversion. *)
Theorem falsy_uri_is_missing (request : Request) (d : gmap string value)
    (v : value) (w : world) :
  json request = Ok (VDict d) ->
  d !! "uri" = Some v ->
  truthy v = false ->
  handle_http_convert request w =
    (Return {| content := VDict {[ "error" := VStr "Missing required parameter: uri" ]};
               status_code := 400 |}, w)
  /\ handle_http_convert request w
     = handle_http_convert {| json := Ok (VDict (delete "uri" d)) |} w.
Proof.
  intros Hjson Huri Ht.
  assert (handle_http_convert request w =
            (Return (error_response "Missing required parameter: uri" 400), w)) as E.
  { apply (handle_falsy request (VDict d) v); [done | | done].
    cbn. by rewrite Huri. }
  split; [exact E |]. rewrite E. symmetry.
  apply (handle_falsy _ (VDict (delete "uri" d)) VNone); [done | | done].
  cbn. by rewrite lookup_delete_eq.
Qed.

End Handler.

(** The paths of the handler, for a proof by cases. *)
Ltac handler_paths request w :=
  let body := fresh "body" in
  let uri := fresh "uri" in
  let m := fresh "m" in
  let resp := fresh "resp" in
  let e := fresh "e" in
  let Hjson := fresh "Hjson" in
  let Hget := fresh "Hget" in
  let Ht := fresh "Ht" in
  let Hresp := fresh "Hresp" in
  destruct (json request) as [body | e] eqn:Hjson;
  [ destruct (py_get body "uri") as [uri | e] eqn:Hget;
    [ destruct (truthy uri) eqn:Ht;
      [ rewrite (handle_truthy request body uri w Hjson Hget Ht);
        destruct (conversion (resources w) uri) as [m | e];
        [ destruct (JSONResponse_new "markdown" m 200) as [resp | e] eqn:Hresp | ]
      | rewrite (handle_falsy request body uri w Hjson Hget Ht) ]
    | rewrite (handle_not_a_dict request body e w Hjson Hget) ]
  | rewrite (handle_undecodable request e w Hjson) ].

(** ** Claims about the converter and the registry *)

Section Lifetime.

Context {MD : MarkItDownClass}.

Lemma call_fn_outcome (f : fn_ref) (kwargs : gmap string value) (w1 w2 : world) :
  resources w1 = resources w2 ->
  (call_fn f kwargs w1).1 = (call_fn f kwargs w2).1.
Proof.
  intros Hres. destruct f. unfold call_fn.
  destruct (kwargs !! "uri") as [uri |]; [| done].
  rewrite (convert_to_markdown_run uri w1), (convert_to_markdown_run uri w2).
  cbn [fst]. by rewrite Hres.
Qed.

(** C10. Each call of [convert_to_markdown] constructs a converter of its
    own: the object it calls [convert_uri] on is a new one in its initial
    state, placed after the objects that exist, which are left as they
    are.  Hence the result of a call is settled by its [uri] and the
    outside world: two processes with any two histories give the same
    result, through the function itself, the registered tool or the
    [/convert] handler. *)
Theorem conversions_are_independent (uri : value) (w1 w2 : world) :
  resources w1 = resources w2 ->
  (forall w,
      heap (convert_to_markdown uri w).2
        = (heap w ++ [(md_convert_uri md_init (resources w) uri).2])%list
      /\ trace (convert_to_markdown uri w).2
         = (trace w ++ [EvMarkItDown (length (heap w));
                        EvConvertUri (length (heap w)) uri])%list
      /\ (convert_to_markdown uri w).1
         = match (md_convert_uri md_init (resources w) uri).1 with
           | Ok r => Return (markdown r)
           | Err e => Raise e
           end)
  /\ (convert_to_markdown uri w1).1 = (convert_to_markdown uri w2).1
  /\ (forall f kwargs, (call_fn f kwargs w1).1 = (call_fn f kwargs w2).1)
  /\ (forall request,
        (handle_http_convert request w1).1 = (handle_http_convert request w2).1).
Proof.
  intros Hres. repeat split.
  - by rewrite (convert_to_markdown_run uri w).
  - by rewrite (convert_to_markdown_run uri w).
  - rewrite (convert_to_markdown_run uri w). unfold conversion. cbn [fst].
    by destruct ((md_convert_uri md_init (resources w) uri).1).
  - rewrite (convert_to_markdown_run uri w1), (convert_to_markdown_run uri w2).
    cbn [fst]. by rewrite Hres.
  - intros f kwargs. by apply call_fn_outcome.
  - intros request. by apply handle_http_convert_response.
Qed.

(** *** The registry *)

Lemma run_operation_mcp (op : operation) (w : world) :
  mcp (run_operation op w) = mcp w.
Proof.
  destruct op as [uri | request | inv]; cbn [run_operation].
  - by rewrite (convert_to_markdown_run uri w).
  - handler_paths request w; reflexivity.
  - unfold main, bind, try_except, lift_outcome.
    cbn -[String.append pretty].
    destruct (parsed inv) as [[is_sse h p] | e | c]; cbn -[String.append pretty];
      [| done | done].
    destruct is_sse; cbn -[String.append pretty].
    + by destruct (served inv).
    + destruct (opt_truthy str_truthy h || opt_truthy int_truthy p);
        cbn -[String.append pretty]; [done |].
      by destruct (served inv).
Qed.

Lemma reachable_mcp (w : world) : reachable w -> mcp w = mcp_at_import.
Proof.
  induction 1 as [res | op w Hw IH | res w Hw IH].
  - reflexivity.
  - by rewrite run_operation_mcp.
  - exact IH.
Qed.

(** C6. Loading the module leaves one tool in the registry, named
    [convert_to_markdown]; its input schema is the one field [uri], a
    required string; its function, called with a [uri], gives what
    [MarkItDown().convert_uri(uri).markdown] gives.  The registry of a
    running process is the registry at load time: nothing the module can
    do afterwards adds, removes or replaces a tool. *)
Theorem registry_fixed (w : world) :
  reachable w ->
  (exists t,
      map_to_list (mcp_tools (mcp w)) = [("convert_to_markdown", t)]
      /\ tool_name t = "convert_to_markdown"
      /\ map_to_list (tool_input_schema t)
         = [("uri", {| field_type := Ann_str; field_required := true |})]
      /\ forall uri w0,
           (call_fn (tool_fn t) {[ "uri" := uri ]} w0).1
           = match (md_convert_uri md_init (resources w0) uri).1 with
             | Ok r => Return (markdown r)
             | Err e => Raise e
             end)
  /\ mcp w = mcp_at_import
  /\ forall op, mcp (run_operation op w) = mcp w.
Proof.
  intros Hw. split; [| split].
  - rewrite (reachable_mcp w Hw). eexists. split; [| split; [| split]].
    + vm_compute. reflexivity.
    + reflexivity.
    + vm_compute. reflexivity.
    + intros uri w0. cbn -[convert_to_markdown]. rewrite lookup_singleton_eq.
      rewrite (convert_to_markdown_run uri w0). unfold conversion. cbn [fst].
      by destruct ((md_convert_uri md_init (resources w0) uri).1).
  - by apply reachable_mcp.
  - intros op. apply run_operation_mcp.
Qed.

End Lifetime.

(** ** Claims about the command line *)

Section CommandLine.

Context {MD : MarkItDownClass}.

(** X1. Without [--sse], a host or a port that counts as true stops the
    program: the message goes to the log and to the error stream, and
    [parser.error] leaves with status 2. *)
Lemma stdio_rejects_overrides (inv : invocation) (args : Namespace) (w : world) :
  parsed inv = Return args ->
  sse args = false ->
  opt_truthy str_truthy (host args) || opt_truthy int_truthy (port args) = true ->
  main inv w =
    (SystemExit 2,
     emitted (startup_log inv args
              ++ [EvLog ERROR [FText usage_message]; EvParserError usage_message]) w).
Proof.
  intros Hp Hsse Ht. unfold main, bind, try_except, lift_outcome, parser_error, logger_log, emit, bind.
  cbn -[String.append pretty]. rewrite Hp. cbn -[String.append pretty].
  rewrite Hsse, Ht. cbn -[String.append pretty].
  unfold emitted. cbn. rewrite <- !app_assoc. reflexivity.
Qed.

(** Without [--sse] and without such a host or port, the program runs the
    stdio transport, and ends the way the transport ends. *)
Lemma stdio_runs (inv : invocation) (args : Namespace) (w : world) :
  parsed inv = Return args ->
  sse args = false ->
  opt_truthy str_truthy (host args) || opt_truthy int_truthy (port args) = false ->
  main inv w =
    (served inv,
     emitted (startup_log inv args
              ++ [EvLog INFO [FText "Starting in STDIO mode"]; EvMcpRun]) w).
Proof.
  intros Hp Hsse Ht. unfold main, bind, try_except, lift_outcome, parser_error, logger_log, emit, bind.
  cbn -[String.append pretty]. rewrite Hp. cbn -[String.append pretty].
  rewrite Hsse, Ht. cbn -[String.append pretty].
  unfold emitted. cbn. rewrite <- !app_assoc.
  by destruct (served inv) as [[] | |].
Qed.

(** C3, the program at [--port 0] without [--sse]: the port is supplied,
    and the program starts the stdio transport and ends the way the
    transport ends, with a return when [mcp.run()] returns; nothing is
    written to the error stream and the process is not left on a usage
    error. *)
Theorem stdio_port_zero_is_ignored (how : outcome unit) (w : world) :
  main {| argv := ["markitdown-mcp"; "--port"; "0"];
          parsed := Return {| sse := false; host := None; port := Some 0 |};
          served := how |} w
  = (how,
     emitted
       [ EvLog INFO [FText "Starting markitdown-mcp server"];
         EvLog DEBUG [FText "Command line arguments: ";
                      FArgv ["markitdown-mcp"; "--port"; "0"]];
         EvLog DEBUG [FText "Parsed arguments: ";
                      FNamespace {| sse := false; host := None; port := Some 0 |}];
         EvLog INFO [FText "Starting in STDIO mode"];
         EvMcpRun ] w).
Proof. by rewrite (stdio_runs _ {| sse := false; host := None; port := Some 0 |}). Qed.

(** C5. With no host and no port given: under [--sse] the program starts
    the network server on 127.0.0.1, port 3001; without [--sse] it runs
    the stdio transport.  Either way it ends the way the transport
    ends. *)
Theorem default_transports (inv : invocation) (args : Namespace) (w : world) :
  parsed inv = Return args ->
  host args = None ->
  port args = None ->
  main inv w =
    (served inv,
     emitted
       (startup_log inv args
        ++ if sse args then
             [ EvLog INFO [FText "Starting in SSE mode"];
               EvLog INFO [FText "Binding to 127.0.0.1:3001"];
               EvUvicornRun
                 (create_starlette_app {| server_name := mcp_name (mcp w) |} true)
                 "127.0.0.1" 3001 ]
           else
             [ EvLog INFO [FText "Starting in STDIO mode"]; EvMcpRun ]) w).
Proof.
  intros Hp Hh Hport. destruct (sse args) eqn:Hsse.
  - unfold main, bind, try_except, lift_outcome, parser_error, logger_log, emit, bind.
    cbn -[String.append pretty]. rewrite Hp. cbn -[String.append pretty].
    rewrite Hsse, Hh, Hport. cbn. unfold emitted. cbn.
    rewrite <- !app_assoc. by destruct (served inv) as [[] | |].
  - apply stdio_runs; [done | done |]. by rewrite Hh, Hport.
Qed.

End CommandLine.

(** ** Claims about protocol sessions *)

Section Sessions.

Context {MD : MarkItDownClass}.

(** A request for the registered tool with a string [uri] is dispatched to
    one conversion, and the response carries the request's correlation
    id. *)
Lemma dispatch_valid (req : RequestEnvelope) (u : string) (w : world) :
  mcp w = mcp_at_import ->
  capability_id req = "convert_to_markdown" ->
  arguments req !! "uri" = Some (VStr u) ->
  dispatch req w =
    (Return {| response_correlation_id := correlation_id req;
               response_body :=
                 match conversion (resources w) (VStr u) with
                 | Ok m => inl m
                 | Err e => inr (ConversionError e)
                 end |},
     converted (VStr u) w).
Proof.
  intros Hmcp Hid Huri. unfold dispatch. rewrite Hmcp, Hid.
  change (resolve mcp_at_import "convert_to_markdown")
    with (@inl Tool protocol_error
            {| tool_name := "convert_to_markdown";
               tool_description := fn_doc convert_to_markdown_def;
               tool_input_schema := schema_of (fn_params convert_to_markdown_def);
               tool_fn := Fn_convert_to_markdown |}).
  unfold invoke, validate. cbn [tool_input_schema tool_fn].
  replace (map_to_list (schema_of (fn_params convert_to_markdown_def)))
    with [("uri", {| field_type := Ann_str; field_required := true |})]
    by (vm_compute; reflexivity).
  cbn [validate_fields]. rewrite Huri. cbn [well_typed field_type].
  unfold bind, try_except, call_fn. rewrite Huri.
  rewrite (convert_to_markdown_run (VStr u) w).
  by destruct (conversion (resources w) (VStr u)).
Qed.

(** C7, as amended. A session that is ready, on either transport, answers
    a request for the registered tool whose [uri] is a string with a
    supported scheme, and on which the converter returns, with one
    response, and every answer it can give is that one response: it
    carries the request's correlation id and its error field is empty. *)
Theorem session_response (s : Session) (req : RequestEnvelope)
    (u m : string) (w : world) :
  reachable w ->
  state s = Ready ->
  capability_id req = "convert_to_markdown" ->
  arguments req !! "uri" = Some (VStr u) ->
  supported_scheme u = true ->
  conversion (resources w) (VStr u) = Ok m ->
  (exists s' w' out, session_step s w (CapabilityRequest req) s' w' out)
  /\ forall s' w' out,
       session_step s w (CapabilityRequest req) s' w' out ->
       exists resp,
         out = inl [Response resp]
         /\ response_correlation_id resp = correlation_id req
         /\ response_error resp = None
         /\ response_body resp = inl m.
Proof.
  intros Hw Hst Hid Huri _ Hconv.
  pose proof (dispatch_valid req u w (reachable_mcp w Hw) Hid Huri) as Hd.
  rewrite Hconv in Hd. split.
  - eexists _, _, _. by eapply step_request.
  - intros s' w' out Hstep. inversion Hstep; subst; try congruence.
    match goal with H : dispatch req w = _ |- _ => rewrite Hd in H; inversion H end.
    eauto.
Qed.

End Sessions.

(** * The module run on the table converter *)

Section Examples.

Local Existing Instance table_converter.

Lemma convert_success_witness :
  handle_http_convert
    (request_of (VDict {[ "uri" := VStr "https://example.com" ]})) example_world
  = (Return {| content := VDict {[ "markdown" := VStr "Example" ]};
               status_code := 200 |},
     converted (VStr "https://example.com") example_world)
  /\ exists t, mcp_tools mcp_at_import !! "convert_to_markdown" = Some t
       /\ call_fn (tool_fn t) {[ "uri" := VStr "https://example.com" ]} example_world
          = (Return "Example", converted (VStr "https://example.com") example_world).
Proof.
  apply (convert_success
           (request_of (VDict {[ "uri" := VStr "https://example.com" ]}))
           {[ "uri" := VStr "https://example.com" ]}
           "https://example.com" "Example" example_world);
    [reflexivity | reflexivity | discriminate | reflexivity | reflexivity].
Defined.

(** C1, as stated, fails when the markdown the converter returns holds a
    lone surrogate: the response cannot be rendered at line 60, the
    [except] block takes over, and the answer is status 500 with the text
    of the [UnicodeEncodeError]. *)
Lemma convert_success_counterexample :
  conversion surrogate_docs (VStr "https://example.com/broken") = Ok lone_surrogate
  /\ handle_http_convert
       (request_of (VDict {[ "uri" := VStr "https://example.com/broken" ]}))
       surrogate_world
     = (Return
          {| content :=
               VDict {[ "error" :=
                          VStr "'utf-8' codec can't encode character '\ud800' in position 13: surrogates not allowed" ]};
             status_code := 500 |},
        logged ERROR
          [FText "Error processing request: 'utf-8' codec can't encode character '\ud800' in position 13: surrogates not allowed"]
          (converted (VStr "https://example.com/broken") surrogate_world)).
Proof. split; reflexivity. Qed.

Lemma missing_uri_in_object_witness :
  handle_http_convert (request_of (VDict ∅)) example_world
  = (Return {| content := VDict {[ "error" := VStr "Missing required parameter: uri" ]};
               status_code := 400 |}, example_world)
  /\ filter (fun e => is_conversion e = true)
       (trace (handle_http_convert (request_of (VDict ∅)) example_world).2)
     = filter (fun e => is_conversion e = true) (trace example_world).
Proof.
  apply (missing_uri_in_object (request_of (VDict ∅)) ∅ example_world);
    reflexivity.
Defined.

(** C2, as stated, fails on a body that is JSON but not an object: the
    empty list has no field [uri], and the answer is status 500 with the
    text of the [AttributeError], not status 400. *)
Lemma missing_uri_counterexample :
  has_field (VList []) "uri" = false
  /\ handle_http_convert (request_of (VList [])) example_world
     = (Return {| content :=
                    VDict {[ "error" := VStr "'list' object has no attribute 'get'" ]};
                  status_code := 500 |},
        logged ERROR
          [FText "Error processing request: 'list' object has no attribute 'get'"]
          example_world)
  /\ ~ (forall (request : Request) (body : value) (w : world),
          json request = Ok body ->
          has_field body "uri" = false ->
          exists resp w',
            handle_http_convert request w = (Return resp, w')
            /\ status_code resp = 400).
Proof.
  split; [reflexivity |]. split; [reflexivity |].
  intros H.
  destruct (H (request_of (VList [])) (VList []) example_world eq_refl eq_refl)
    as (resp & w' & Hrun & Hcode).
  inversion Hrun; subst resp. discriminate Hcode.
Qed.

(** C4, the handler at the body [{"uri": "\ud800"}]: the converter
    refuses the URI with a [ValueError] whose text holds the surrogate,
    the [except] block logs it, and the response it then constructs at
    line 64 cannot be rendered: the [UnicodeEncodeError] leaves the
    handler, and no JSON answer with an [error] field is returned. *)
Theorem conversion_failure_escapes :
  conversion example_docs (VStr lone_surrogate)
  = Err (Exn "ValueError"
           ("Unsupported URI scheme: " +:+ lone_surrogate
            +:+ ". Supported schemes are: file:, data:, http:, https:"))
  /\ handle_http_convert (request_of (VDict {[ "uri" := VStr lone_surrogate ]}))
       example_world
     = (Raise
          (Exn "UnicodeEncodeError"
             "'utf-8' codec can't encode character '\ud800' in position 34: surrogates not allowed"),
        logged ERROR
          [FText ("Error processing request: Unsupported URI scheme: "
                  +:+ lone_surrogate
                  +:+ ". Supported schemes are: file:, data:, http:, https:")]
          (converted (VStr lone_surrogate) example_world)).
Proof. split; reflexivity. Qed.

(** C9, the handler at the body [{"uri": "\ud800"}]: it does not return
    a response; an exception raised inside the [except] block reaches
    the caller. *)
Theorem handler_raises :
  exists e w',
    handle_http_convert (request_of (VDict {[ "uri" := VStr lone_surrogate ]}))
      example_world
    = (Raise e, w')
    /\ exc_class e = "UnicodeEncodeError".
Proof. eexists _, _. split; reflexivity. Qed.

Lemma falsy_uri_is_missing_witness :
  let missing :=
    (Return {| content :=
                 VDict {[ "error" := VStr "Missing required parameter: uri" ]};
               status_code := 400 |}, example_world) in
  handle_http_convert (request_of (VDict {[ "uri" := VStr "" ]})) example_world
  = missing
  /\ handle_http_convert (request_of (VDict {[ "uri" := VNone ]})) example_world
     = missing
  /\ handle_http_convert (request_of (VDict {[ "uri" := VBool false ]})) example_world
     = missing
  /\ handle_http_convert (request_of (VDict {[ "uri" := VInt 0 ]})) example_world
     = missing.
Proof.
  split; [| split; [| split]];
    match goal with
    | |- handle_http_convert (request_of (VDict {[ "uri" := ?v ]})) _ = _ =>
        apply (falsy_uri_is_missing (request_of (VDict {[ "uri" := v ]}))
                 {[ "uri" := v ]} v example_world);
          reflexivity
    end.
Defined.

Lemma conversions_are_independent_witness :
  resources example_world
  = resources (run_operation (Op_convert_to_markdown (VStr "file:///a.txt"))
                 example_world)
  /\ (convert_to_markdown (VStr "https://example.com") example_world).1
     = (convert_to_markdown (VStr "https://example.com")
          (run_operation (Op_convert_to_markdown (VStr "file:///a.txt"))
             example_world)).1.
Proof.
  split; [reflexivity |].
  apply (conversions_are_independent (VStr "https://example.com") example_world
           (run_operation (Op_convert_to_markdown (VStr "file:///a.txt"))
              example_world)).
  reflexivity.
Defined.

Lemma registry_fixed_witness :
  mcp (run_operation
         (Op_handle_http_convert
            (request_of (VDict {[ "uri" := VStr "https://example.com" ]})))
         example_world)
  = mcp_at_import.
Proof.
  apply (registry_fixed
           (run_operation
              (Op_handle_http_convert
                 (request_of (VDict {[ "uri" := VStr "https://example.com" ]})))
              example_world)).
  apply reachable_run, reachable_import.
Defined.

Lemma default_transports_witness :
  main {| argv := ["markitdown-mcp"; "--sse"];
          parsed := Return {| sse := true; host := None; port := None |};
          served := Return tt |}
    example_world
  = (Return tt,
     emitted
       [ EvLog INFO [FText "Starting markitdown-mcp server"];
         EvLog DEBUG [FText "Command line arguments: ";
                      FArgv ["markitdown-mcp"; "--sse"]];
         EvLog DEBUG [FText "Parsed arguments: ";
                      FNamespace {| sse := true; host := None; port := None |}];
         EvLog INFO [FText "Starting in SSE mode"];
         EvLog INFO [FText "Binding to 127.0.0.1:3001"];
         EvUvicornRun
           (create_starlette_app {| server_name := "markitdown" |} true)
           "127.0.0.1" 3001 ] example_world)
  /\ main {| argv := ["markitdown-mcp"];
             parsed := Return {| sse := false; host := None; port := None |};
             served := Return tt |}
       example_world
     = (Return tt,
        emitted
          [ EvLog INFO [FText "Starting markitdown-mcp server"];
            EvLog DEBUG [FText "Command line arguments: "; FArgv ["markitdown-mcp"]];
            EvLog DEBUG [FText "Parsed arguments: ";
                         FNamespace {| sse := false; host := None; port := None |}];
            EvLog INFO [FText "Starting in STDIO mode"];
            EvMcpRun ] example_world).
Proof.
  split.
  - apply (default_transports
             {| argv := ["markitdown-mcp"; "--sse"];
                parsed := Return {| sse := true; host := None; port := None |};
                served := Return tt |}
             {| sse := true; host := None; port := None |} example_world);
      reflexivity.
  - apply (default_transports
             {| argv := ["markitdown-mcp"];
                parsed := Return {| sse := false; host := None; port := None |};
                served := Return tt |}
             {| sse := false; host := None; port := None |} example_world);
      reflexivity.
Defined.

Lemma session_response_witness :
  (exists s' w' out,
      session_step (ready_session Stdio) example_world
        (CapabilityRequest (tool_request 1 "file:///a.txt")) s' w' out)
  /\ forall s' w' out,
       session_step (ready_session Stdio) example_world
         (CapabilityRequest (tool_request 1 "file:///a.txt")) s' w' out ->
       exists resp,
         out = inl [Response resp]
         /\ response_correlation_id resp = VInt 1
         /\ response_error resp = None
         /\ response_body resp = inl "# Title".
Proof.
  apply (session_response (ready_session Stdio) (tool_request 1 "file:///a.txt")
           "file:///a.txt" "# Title" example_world);
    [apply reachable_import | reflexivity ..].
Defined.

(** C7, as stated, fails when the converter raises on a URI whose scheme
    is supported: the one response of the session carries the request's
    correlation id and a [ConversionError] in its error field. *)
Lemma session_response_counterexample :
  supported_scheme "https://unreachable.example" = true
  /\ (exists w',
       session_step (ready_session SSE) example_world
         (CapabilityRequest (tool_request 7 "https://unreachable.example"))
         (ready_session SSE) w'
         (inl [Response
                 {| response_correlation_id := VInt 7;
                    response_body :=
                      inr (ConversionError
                             (Exn "ConnectionError"
                                  "cannot fetch https://unreachable.example")) |}]))
  /\ response_error
       {| response_correlation_id := VInt 7;
          response_body :=
            inr (ConversionError
                   (Exn "ConnectionError"
                        "cannot fetch https://unreachable.example")) |}
     <> None.
Proof.
  split; [reflexivity |]. split; [| discriminate].
  eexists. apply step_request; [reflexivity |].
  rewrite (dispatch_valid (tool_request 7 "https://unreachable.example")
             "https://unreachable.example" example_world);
    reflexivity.
Qed.

End Examples.

(** * Further properties of the entry point *)

Section EntryPoint.

Context {MD : MarkItDownClass}.

(** [main], path by path. *)
Lemma main_run (inv : invocation) (w : world) :
  main inv w =
    match parsed inv with
    | Return args =>
        if negb (sse args) && has_override args then
          (SystemExit 2,
           emitted (startup_log inv args
                    ++ [EvLog ERROR [FText usage_message];
                        EvParserError usage_message]) w)
        else if sse args then
          let h := if opt_truthy str_truthy (host args)
                   then default "" (host args) else "127.0.0.1" in
          let p := if opt_truthy int_truthy (port args)
                   then default 0 (port args) else 3001 in
          (served inv,
           emitted (startup_log inv args
                    ++ [EvLog INFO [FText "Starting in SSE mode"];
                        EvLog INFO [FText ("Binding to " +:+ h +:+ ":" +:+ pretty p)];
                        EvUvicornRun
                          (create_starlette_app
                             {| server_name := mcp_name (mcp w) |} true) h p]) w)
        else
          (served inv,
           emitted (startup_log inv args
                    ++ [EvLog INFO [FText "Starting in STDIO mode"]; EvMcpRun]) w)
    | Raise e =>
        (Raise e,
         emitted
           [EvLog INFO [FText "Starting markitdown-mcp server"];
            EvLog DEBUG [FText "Command line arguments: "; FArgv (argv inv)];
            EvLog ERROR [FText ("Error parsing arguments: " +:+ exc_str e)]] w)
    | SystemExit c =>
        (SystemExit c,
         emitted
           [EvLog INFO [FText "Starting markitdown-mcp server"];
            EvLog DEBUG [FText "Command line arguments: "; FArgv (argv inv)]] w)
    end.
Proof.
  unfold main, bind, try_except, lift_outcome, parser_error, logger_log, emit,
    bind, has_override.
  cbn -[String.append pretty].
  destruct (parsed inv) as [args | e | c]; cbn -[String.append pretty].
  - destruct (sse args); cbn -[String.append pretty].
    + unfold emitted. cbn -[String.append pretty].
      rewrite <- !app_assoc. by destruct (served inv) as [[] | |].
    + destruct (opt_truthy str_truthy (host args)
                || opt_truthy int_truthy (port args));
        cbn -[String.append pretty]; unfold emitted; cbn;
        rewrite <- !app_assoc; [reflexivity |].
      by destruct (served inv) as [[] | |].
  - unfold emitted. cbn. rewrite <- !app_assoc. reflexivity.
  - unfold emitted. cbn. rewrite <- !app_assoc. reflexivity.
Qed.

(** X2. Under [--sse] the program never stops on a usage error of its
    own: it starts the network server once, and ends the way
    [uvicorn.run] ends.  A host that is given and not empty is the host
    it binds, and a port that is given and not 0 is the port; a host that
    is absent or empty becomes 127.0.0.1 and a port that is absent or 0
    becomes 3001. *)
Theorem sse_binding (inv : invocation) (args : Namespace) (w : world) :
  parsed inv = Return args ->
  sse args = true ->
  exists h p,
    main inv w =
      (served inv,
       emitted (startup_log inv args
                ++ [EvLog INFO [FText "Starting in SSE mode"];
                    EvLog INFO [FText ("Binding to " +:+ h +:+ ":" +:+ pretty p)];
                    EvUvicornRun
                      (create_starlette_app
                         {| server_name := mcp_name (mcp w) |} true) h p]) w)
    /\ (forall h0, host args = Some h0 -> h0 <> "" -> h = h0)
    /\ (host args = None \/ host args = Some "" -> h = "127.0.0.1")
    /\ (forall p0, port args = Some p0 -> p0 <> 0 -> p = p0)
    /\ (port args = None \/ port args = Some 0 -> p = 3001).
Proof.
  intros Hp Hsse. rewrite main_run, Hp, Hsse. cbn [negb andb].
  eexists _, _. split; [reflexivity |]. repeat split.
  - intros h0 Hh Hne. rewrite Hh. cbn.
    apply String.eqb_neq in Hne. unfold str_truthy. by rewrite Hne.
  - intros [Hh | Hh]; by rewrite Hh.
  - intros p0 Hport Hne. rewrite Hport. cbn.
    apply Z.eqb_neq in Hne. unfold int_truthy. by rewrite Hne.
  - intros [Hport | Hport]; by rewrite Hport.
Qed.

(** X3. When the argument parser leaves the process ([SystemExit], for a
    usage error or for [--help]), [main] leaves with the same status: the
    [except Exception] around it does not catch the exit, nothing is
    logged as an error and no transport is started. *)
Theorem parse_exit_passes_through (inv : invocation) (c : Z) (w : world) :
  parsed inv = SystemExit c ->
  main inv w =
    (SystemExit c,
     emitted
       [EvLog INFO [FText "Starting markitdown-mcp server"];
        EvLog DEBUG [FText "Command line arguments: "; FArgv (argv inv)]] w).
Proof. intros Hp. by rewrite main_run, Hp. Qed.

(** X4. When the argument parser raises an exception, [main] logs it at
    ERROR level and raises the same exception again; no transport is
    started. *)
Theorem parse_exception_reraised (inv : invocation) (e : exn) (w : world) :
  parsed inv = Raise e ->
  main inv w =
    (Raise e,
     emitted
       [EvLog INFO [FText "Starting markitdown-mcp server"];
        EvLog DEBUG [FText "Command line arguments: "; FArgv (argv inv)];
        EvLog ERROR [FText ("Error parsing arguments: " +:+ exc_str e)]] w).
Proof. intros Hp. by rewrite main_run, Hp. Qed.

(** X5. How [main] ends is settled by the parser's result and by the
    transport: it ends the way the transport ends when the options are
    accepted, leaves with status 2, before any transport, when a host or
    port that counts as true comes without [--sse], and otherwise ends
    the way the parser ended.  The [sys.exit(1)] of line 113 is never
    reached. *)
Theorem main_outcome (inv : invocation) (w : world) :
  (main inv w).1 =
    match parsed inv with
    | Return args =>
        if negb (sse args) && has_override args then SystemExit 2 else served inv
    | Raise e => Raise e
    | SystemExit c => SystemExit c
    end.
Proof.
  rewrite main_run. destruct (parsed inv) as [args | e | c]; [| done | done].
  destruct (sse args), (has_override args); reflexivity.
Qed.


End EntryPoint.

(** * Further properties of the [/convert] endpoint *)

Section Endpoint.

Context {MD : MarkItDownClass}.

(** The answer of the [except] block, when there is one. *)
Ltac error_answer e :=
  let r := fresh "r" in
  let e' := fresh "e" in
  let Hr := fresh "Hr" in
  unfold handled;
  destruct (JSONResponse_new "error" (exc_str e) 500) as [r | e'] eqn:Hr;
  [ apply JSONResponse_new_inv in Hr; subst r | ];
  cbn [outcome_of].

(** X7. A body that decodes to anything but an object ([None], a boolean,
    a number, a string or a list) is answered with status 500; the error
    names the type of the body, the one [body.get] was looked up on.  The
    line is logged, and no converter is constructed. *)
Theorem non_object_body (request : Request) (body : value) (w : world) :
  json request = Ok body ->
  (forall d, body <> VDict d) ->
  handle_http_convert request w =
    (Return
       {| content :=
            VDict {[ "error" :=
                       VStr ("'" +:+ type_name body
                             +:+ "' object has no attribute 'get'") ]};
          status_code := 500 |},
     logged ERROR
       [FText ("Error processing request: '" +:+ type_name body
               +:+ "' object has no attribute 'get'")] w).
Proof.
  intros Hjson Hbody.
  rewrite (handle_not_a_dict request body
             (Exn "AttributeError"
                  ("'" +:+ type_name body +:+ "' object has no attribute 'get'")));
    [| done |].
  - destruct body; reflexivity.
  - destruct body; try reflexivity. by destruct (Hbody d).
Qed.

(** X8. Of an object body the handler reads the field [uri] and nothing
    else: two bodies that agree on [uri] are handled alike, whatever
    other fields they carry. *)
Theorem other_fields_ignored (r1 r2 : Request) (d1 d2 : gmap string value)
    (w : world) :
  json r1 = Ok (VDict d1) ->
  json r2 = Ok (VDict d2) ->
  d1 !! "uri" = d2 !! "uri" ->
  handle_http_convert r1 w = handle_http_convert r2 w.
Proof.
  intros H1 H2 Huri.
  assert (py_get (VDict d2) "uri" = py_get (VDict d1) "uri") as Hget
    by (cbn; by rewrite Huri).
  destruct (py_get (VDict d1) "uri") as [uri | e] eqn:Hg; [| done].
  destruct (truthy uri) eqn:Ht.
  - by rewrite (handle_truthy r1 (VDict d1) uri), (handle_truthy r2 (VDict d2) uri).
  - by rewrite (handle_falsy r1 (VDict d1) uri), (handle_falsy r2 (VDict d2) uri).
Qed.

(** X9. The handler does not check that [uri] is a string: a [uri] of any
    JSON type that counts as true is handed to a new converter as it is.
    The two calls come first in what the request adds to the trace, and
    they are the only calls to the converter. *)
Theorem truthy_uri_converted_as_is (request : Request) (d : gmap string value)
    (uri : value) (w : world) :
  json request = Ok (VDict d) ->
  d !! "uri" = Some uri ->
  truthy uri = true ->
  exists rest,
    trace (handle_http_convert request w).2
    = (trace w ++ EvMarkItDown (length (heap w))
               :: EvConvertUri (length (heap w)) uri :: rest)%list
    /\ filter (fun e => is_conversion e = true) rest = [].
Proof.
  intros Hjson Huri Ht.
  rewrite (handle_truthy request (VDict d) uri); [| done | | done].
  - destruct (conversion (resources w) uri) as [m | e].
    + destruct (JSONResponse_new "markdown" m 200) as [resp | e].
      * exists []. split; reflexivity.
      * eexists [_]. split; [cbn; by rewrite <- app_assoc | reflexivity].
    + eexists [_]. split; [cbn; by rewrite <- app_assoc | reflexivity].
  - cbn. by rewrite Huri.
Qed.

(** X10. A response the handler returns has one of three shapes and no
    other: status 200 with the one field [markdown], status 400 with the
    missing-parameter error, and status 500 with the one field
    [error]. *)
Theorem status_and_body (request : Request) (w : world)
    (resp : JSONResponse) (w' : world) :
  handle_http_convert request w = (Return resp, w') ->
  (exists m, resp = {| content := VDict {[ "markdown" := VStr m ]};
                       status_code := 200 |})
  \/ resp = {| content :=
                 VDict {[ "error" := VStr "Missing required parameter: uri" ]};
               status_code := 400 |}
  \/ (exists msg, resp = {| content := VDict {[ "error" := VStr msg ]};
                            status_code := 500 |}).
Proof.
  handler_paths request w.
  - apply JSONResponse_new_inv in Hresp. intros [= <- <-]. eauto.
  - error_answer e; intros [= <- <-]. eauto.
  - error_answer e; intros [= <- <-]. eauto.
  - intros [= <- <-]. eauto.
  - error_answer e; intros [= <- <-]. eauto.
  - error_answer e; intros [= <- <-]. eauto.
Qed.

(** X11. Every answer with status 500 is logged, once, at ERROR level,
    with the text of its [error] field; answers with status 200 or 400
    leave no line in the log.  When the [except] block cannot render its
    answer and raises, the one line it logged is in the log. *)
Theorem errors_are_logged (request : Request) (w : world) :
  exists out w' evs,
    handle_http_convert request w = (out, w')
    /\ trace w' = (trace w ++ evs)%list
    /\ match out with
       | Return resp =>
           filter (fun e => is_log e = true) evs
           = if status_code resp =? 500 then
               match content resp with
               | VDict fields =>
                   match fields !! "error" with
                   | Some (VStr msg) =>
                       [EvLog ERROR [FText ("Error processing request: " +:+ msg)]]
                   | _ => []
                   end
               | _ => []
               end
             else []
       | Raise _ =>
           exists msg,
             filter (fun e => is_log e = true) evs
             = [EvLog ERROR [FText ("Error processing request: " +:+ msg)]]
       | SystemExit _ => False
       end.
Proof.
  handler_paths request w.
  - apply JSONResponse_new_inv in Hresp. subst resp.
    eexists _, _, [_; _]. split; [reflexivity |]. split; reflexivity.
  - error_answer e; eexists _, _, [_; _; _]; (split; [reflexivity |]);
      (split; [cbn; by rewrite <- app_assoc |]).
    + cbn [status_code content]. rewrite lookup_singleton_eq. reflexivity.
    + eexists. reflexivity.
  - error_answer e; eexists _, _, [_; _; _]; (split; [reflexivity |]);
      (split; [cbn; by rewrite <- app_assoc |]).
    + cbn [status_code content]. rewrite lookup_singleton_eq. reflexivity.
    + eexists. reflexivity.
  - eexists _, _, []. split; [reflexivity |].
    split; [by rewrite app_nil_r | reflexivity].
  - error_answer e; eexists _, _, [_]; (split; [reflexivity |]);
      (split; [reflexivity |]).
    + cbn [status_code content]. rewrite lookup_singleton_eq. reflexivity.
    + eexists. reflexivity.
  - error_answer e; eexists _, _, [_]; (split; [reflexivity |]);
      (split; [reflexivity |]).
    + cbn [status_code content]. rewrite lookup_singleton_eq. reflexivity.
    + eexists. reflexivity.
Qed.

(** X12. One request constructs at most one converter, and none when it
    is answered with status 400; the converters of earlier requests are
    left as they were, and status 200 is only given after a
    conversion. *)
Theorem one_conversion_per_request (request : Request) (w : world) :
  exists out w',
    handle_http_convert request w = (out, w')
    /\ (heap w' = heap w \/ exists st, heap w' = (heap w ++ [st])%list)
    /\ match out with
       | Return resp =>
           (status_code resp = 400 -> heap w' = heap w)
           /\ (status_code resp = 200 -> exists st, heap w' = (heap w ++ [st])%list)
       | _ => True
       end.
Proof.
  handler_paths request w.
  - apply JSONResponse_new_inv in Hresp. subst resp.
    eexists _, _. split; [reflexivity |]. cbn.
    split; [by eauto | split; intros Hs; first [discriminate Hs | by eauto]].
  - error_answer e; eexists _, _; (split; [reflexivity |]); cbn;
      (split; [by eauto |]); [| done].
    split; intros Hs; first [discriminate Hs | by eauto].
  - error_answer e; eexists _, _; (split; [reflexivity |]); cbn;
      (split; [by eauto |]); [| done].
    split; intros Hs; first [discriminate Hs | by eauto].
  - eexists _, _. split; [reflexivity |]. cbn.
    split; [by eauto | split; intros Hs; first [discriminate Hs | by eauto]].
  - error_answer e; eexists _, _; (split; [reflexivity |]); cbn;
      (split; [by eauto |]); [| done].
    split; intros Hs; first [discriminate Hs | by eauto].
  - error_answer e; eexists _, _; (split; [reflexivity |]); cbn;
      (split; [by eauto |]); [| done].
    split; intros Hs; first [discriminate Hs | by eauto].
Qed.

End Endpoint.

(** * Converter objects over the life of the process *)

Section Objects.

Context {MD : MarkItDownClass}.

(** What one entry point adds: some calls, and as many new objects as
    conversions, each object constructed and then converted with. *)
Lemma run_operation_objects (op : operation) (w : world) :
  exists evs k,
    trace (run_operation op w) = (trace w ++ evs)%list
    /\ length (heap (run_operation op w)) = (length (heap w) + k)%nat
    /\ omap created_object evs = seq (length (heap w)) k
    /\ omap converted_object evs = seq (length (heap w)) k.
Proof.
  destruct op as [uri | request | inv]; cbn [run_operation].
  - rewrite (convert_to_markdown_run uri w).
    eexists [_; _], 1%nat. cbn. rewrite length_app. by repeat split.
  - handler_paths request w; unfold handled; cbn [snd].
    + eexists [_; _], 1%nat. cbn. rewrite length_app. by repeat split.
    + eexists [_; _; _], 1%nat. cbn. rewrite length_app, <- app_assoc.
      by repeat split.
    + eexists [_; _; _], 1%nat. cbn. rewrite length_app, <- app_assoc.
      by repeat split.
    + exists [], 0%nat. cbn. rewrite app_nil_r, Nat.add_0_r. by repeat split.
    + eexists [_], 0%nat. cbn. rewrite Nat.add_0_r. by repeat split.
    + eexists [_], 0%nat. cbn. rewrite Nat.add_0_r. by repeat split.
  - rewrite main_run. destruct (parsed inv) as [args | e | c].
    + destruct (sse args), (has_override args); cbn [negb andb];
        eexists _, 0%nat; cbn; rewrite Nat.add_0_r; by repeat split.
    + eexists _, 0%nat; cbn; rewrite Nat.add_0_r; by repeat split.
    + eexists _, 0%nat; cbn; rewrite Nat.add_0_r; by repeat split.
Qed.

(** X13. In a running process every converter object has been used for
    exactly one conversion: reading the trace from the start, the objects
    constructed are 0, 1, 2, ... up to the number of objects that exist,
    and the objects [convert_uri] was called on are the same, in the same
    order.  No converter is used twice and none is left unused. *)
Theorem objects_converted_once (w : world) :
  reachable w ->
  omap created_object (trace w) = seq 0 (length (heap w))
  /\ omap converted_object (trace w) = seq 0 (length (heap w)).
Proof.
  induction 1 as [res | op w Hw [IHc IHu] | res w Hw IH].
  - split; reflexivity.
  - destruct (run_operation_objects op w) as (evs & k & Ht & Hh & Hc & Hu).
    rewrite Ht, Hh, !omap_app, IHc, IHu, Hc, Hu, seq_app. by split.
  - exact IH.
Qed.

End Objects.

(** * More runs on the table converter *)

Section Runs.

Local Existing Instance table_converter.

Lemma stdio_rejects_overrides_witness :
  let inv := {| argv := ["markitdown-mcp"; "--port"; "8080"];
                parsed := Return {| sse := false; host := None; port := Some 8080 |};
              served := Return tt |} in
  main inv example_world =
    (SystemExit 2,
     emitted (startup_log inv {| sse := false; host := None; port := Some 8080 |}
              ++ [EvLog ERROR [FText usage_message]; EvParserError usage_message])
       example_world).
Proof.
  apply (stdio_rejects_overrides
           {| argv := ["markitdown-mcp"; "--port"; "8080"];
              parsed := Return {| sse := false; host := None; port := Some 8080 |};
              served := Return tt |}
           {| sse := false; host := None; port := Some 8080 |} example_world);
    reflexivity.
Defined.

Lemma sse_binding_witness :
  let args := {| sse := true; host := Some "0.0.0.0"; port := Some 0 |} in
  let inv := {| argv := ["markitdown-mcp"; "--sse"; "--host"; "0.0.0.0"; "--port"; "0"];
                parsed := Return args;
                served := SystemExit 1 |} in
  exists h p,
    main inv example_world =
      (SystemExit 1,
       emitted (startup_log inv args
                ++ [EvLog INFO [FText "Starting in SSE mode"];
                    EvLog INFO [FText ("Binding to " +:+ h +:+ ":" +:+ pretty p)];
                    EvUvicornRun
                      (create_starlette_app
                         {| server_name := mcp_name (mcp example_world) |} true) h p])
         example_world)
    /\ (forall h0, host args = Some h0 -> h0 <> "" -> h = h0)
    /\ (host args = None \/ host args = Some "" -> h = "127.0.0.1")
    /\ (forall p0, port args = Some p0 -> p0 <> 0 -> p = p0)
    /\ (port args = None \/ port args = Some 0 -> p = 3001).
Proof.
  apply (sse_binding
           {| argv := ["markitdown-mcp"; "--sse"; "--host"; "0.0.0.0"; "--port"; "0"];
              parsed := Return {| sse := true; host := Some "0.0.0.0"; port := Some 0 |};
              served := SystemExit 1 |}
           {| sse := true; host := Some "0.0.0.0"; port := Some 0 |} example_world);
    reflexivity.
Defined.

Lemma parse_exit_passes_through_witness :
  main {| argv := ["markitdown-mcp"; "--help"]; parsed := SystemExit 0;
          served := Return tt |} example_world
  = (SystemExit 0,
     emitted
       [EvLog INFO [FText "Starting markitdown-mcp server"];
        EvLog DEBUG [FText "Command line arguments: ";
                     FArgv ["markitdown-mcp"; "--help"]]] example_world).
Proof.
  apply (parse_exit_passes_through
           {| argv := ["markitdown-mcp"; "--help"]; parsed := SystemExit 0;
          served := Return tt |}
           0 example_world).
  reflexivity.
Defined.

Lemma parse_exception_reraised_witness :
  main {| argv := ["markitdown-mcp"];
          parsed := Raise (Exn "RuntimeError" "lost sys.stderr");
          served := Return tt |} example_world
  = (Raise (Exn "RuntimeError" "lost sys.stderr"),
     emitted
       [EvLog INFO [FText "Starting markitdown-mcp server"];
        EvLog DEBUG [FText "Command line arguments: "; FArgv ["markitdown-mcp"]];
        EvLog ERROR [FText "Error parsing arguments: lost sys.stderr"]]
       example_world).
Proof.
  apply (parse_exception_reraised
           {| argv := ["markitdown-mcp"];
              parsed := Raise (Exn "RuntimeError" "lost sys.stderr");
          served := Return tt |}
           (Exn "RuntimeError" "lost sys.stderr") example_world).
  reflexivity.
Defined.

Lemma non_object_body_witness :
  handle_http_convert (request_of (VStr "https://example.com")) example_world
  = (Return
       {| content := VDict {[ "error" := VStr "'str' object has no attribute 'get'" ]};
          status_code := 500 |},
     logged ERROR
       [FText "Error processing request: 'str' object has no attribute 'get'"]
       example_world).
Proof.
  apply (non_object_body (request_of (VStr "https://example.com"))
           (VStr "https://example.com") example_world);
    [reflexivity | discriminate].
Defined.

Lemma other_fields_ignored_witness :
  handle_http_convert
    (request_of (VDict {[ "uri" := VStr "https://example.com" ]})) example_world
  = handle_http_convert
      (request_of (VDict {[ "uri" := VStr "https://example.com";
                            "format" := VStr "html" ]})) example_world.
Proof.
  apply (other_fields_ignored
           (request_of (VDict {[ "uri" := VStr "https://example.com" ]}))
           (request_of (VDict {[ "uri" := VStr "https://example.com";
                                 "format" := VStr "html" ]}))
           {[ "uri" := VStr "https://example.com" ]}
           {[ "uri" := VStr "https://example.com"; "format" := VStr "html" ]}
           example_world);
    reflexivity.
Defined.

Lemma truthy_uri_converted_as_is_witness :
  exists rest,
    trace (handle_http_convert (request_of (VDict {[ "uri" := VInt 5 ]}))
             example_world).2
    = (trace example_world
       ++ EvMarkItDown (length (heap example_world))
       :: EvConvertUri (length (heap example_world)) (VInt 5) :: rest)%list
    /\ filter (fun e => is_conversion e = true) rest = [].
Proof.
  apply (truthy_uri_converted_as_is (request_of (VDict {[ "uri" := VInt 5 ]}))
           {[ "uri" := VInt 5 ]} (VInt 5) example_world);
    reflexivity.
Defined.

Lemma status_and_body_witness :
  handle_http_convert
    (request_of (VDict {[ "uri" := VStr "https://example.com" ]})) example_world
  = (Return {| content := VDict {[ "markdown" := VStr "Example" ]};
               status_code := 200 |},
     converted (VStr "https://example.com") example_world)
  /\ ((exists m,
         {| content := VDict {[ "markdown" := VStr "Example" ]}; status_code := 200 |}
         = {| content := VDict {[ "markdown" := VStr m ]}; status_code := 200 |})
      \/ {| content := VDict {[ "markdown" := VStr "Example" ]}; status_code := 200 |}
         = {| content := VDict {[ "error" := VStr "Missing required parameter: uri" ]};
              status_code := 400 |}
      \/ (exists msg,
            {| content := VDict {[ "markdown" := VStr "Example" ]}; status_code := 200 |}
            = {| content := VDict {[ "error" := VStr msg ]}; status_code := 500 |})).
Proof.
  split; [reflexivity |].
  apply (status_and_body
           (request_of (VDict {[ "uri" := VStr "https://example.com" ]}))
           example_world
           {| content := VDict {[ "markdown" := VStr "Example" ]}; status_code := 200 |}
           (converted (VStr "https://example.com") example_world)).
  reflexivity.
Defined.

Lemma objects_converted_once_witness :
  let w := run_operation
             (Op_handle_http_convert
                (request_of (VDict {[ "uri" := VStr "https://example.com" ]})))
             (run_operation (Op_convert_to_markdown (VStr "file:///a.txt"))
                example_world) in
  omap created_object (trace w) = seq 0 (length (heap w))
  /\ omap converted_object (trace w) = seq 0 (length (heap w)).
Proof.
  apply (objects_converted_once
           (run_operation
              (Op_handle_http_convert
                 (request_of (VDict {[ "uri" := VStr "https://example.com" ]})))
              (run_operation (Op_convert_to_markdown (VStr "file:///a.txt"))
                 example_world))).
  apply reachable_run, reachable_run, reachable_import.
Defined.

End Runs.
